(** * Layout handlers of the chronograf server (server/layout.go)

    A shallow embedding of [newLayoutResponse], [ValidLayoutRequest] and the
    HTTP handlers [NewLayout], [Layouts], [LayoutsID], [RemoveLayout] and
    [UpdateLayout], followed by the properties of the layout specification
    that were checked against them.

    Conventions.
    - A Go [string] is a [string] (a sequence of bytes); [+] on strings is
      [+:+].
    - A Go [error] is the text it carries; [nil] is [None].
    - A Go [map[string]V] is a [gmap string V]; a map that may be [nil] is an
      [option (gmap string V)], [None] standing for [nil].  Reading a missing
      key, or any key of a [nil] map, finds nothing.
    - A Go slice is a [list]; [range] is recursion on the list, an early
      [return] ends the recursion.
    - A pair of results [(T, error)] is [T * option error]. *)

From stdpp Require Import gmap strings list fin_maps.
From Stdlib Require Import ZArith DecimalString.

Open Scope Z_scope.

(** ** Data model *)

Definition error : Type := string.

Module chronograf.

(** Modelled from the spec: the declarations of package [chronograf]
    ([Axis], [Query], [Cell], [Layout], [Organization]) are outside the
    sources at hand.  The records carry the fields that section 3 of the
    specification lists and that server/layout.go reads or writes; the
    dimensions [W] and [H] are integers, of which the code only asks
    whether they are zero. *)
Record Axis : Type := mkAxis { Bounds : list string }.

Record Query : Type := mkQuery { Command : string }.

Record Cell : Type := mkCell {
  W : Z;
  H : Z;
  Queries : list Query;
  Axes : option (gmap string Axis)
}.

Record Layout : Type := mkLayout {
  ID : string;
  Application : string;
  Measurement : string;
  Organization : string;
  Cells : list Cell
}.

(** The default organization, of which the handlers read the numeric
    [ID] only (it is printed with [%d]). *)
Record OrganizationRecord : Type := mkOrganization { OrganizationID : Z }.

End chronograf.
Import chronograf.

#[global] Instance Axis_eq_dec : EqDecision Axis.
Proof. solve_decision. Defined.

#[global] Instance Query_eq_dec : EqDecision Query.
Proof. solve_decision. Defined.

#[global] Instance Cell_eq_dec : EqDecision Cell.
Proof. solve_decision. Defined.

#[global] Instance Layout_eq_dec : EqDecision Layout.
Proof. solve_decision. Defined.

(** Field assignments [l.ID = v], [l.Organization = v], [c.Axes = v]. *)
Definition set_ID (l : Layout) (v : string) : Layout :=
  {| ID := v; Application := Application l; Measurement := Measurement l;
     Organization := Organization l; Cells := Cells l |}.

Definition set_Organization (l : Layout) (v : string) : Layout :=
  {| ID := ID l; Application := Application l; Measurement := Measurement l;
     Organization := v; Cells := Cells l |}.

Definition set_Cells (l : Layout) (v : list Cell) : Layout :=
  {| ID := ID l; Application := Application l; Measurement := Measurement l;
     Organization := Organization l; Cells := v |}.

Definition set_Axes (c : Cell) (v : option (gmap string Axis)) : Cell :=
  {| W := W c; H := H c; Queries := Queries c; Axes := v |}.

(** The zero value [chronograf.Layout{}]. *)
Definition zero_Layout : Layout :=
  {| ID := ""; Application := ""; Measurement := ""; Organization := "";
     Cells := [] |}.

(** [fmt.Sprintf("%d", n)]. *)
Definition Sprintf_d (n : Z) : string := NilZero.string_of_int (Z.to_int n).

(** ** ValidLayoutRequest (layout.go, lines 206-227) *)

Definition err_required : error := "app, measurement, and cells required".
Definition err_w_h : error := "w, and h required".
Definition err_query : error := "query required".

(** [for _, q := range c.Queries { if q.Command == "" { return ... } }] *)
Fixpoint range_Queries (qs : list Query) : option error :=
  match qs with
  | [] => None
  | q :: qs' =>
      if (Command q =? "")%string then Some err_query else range_Queries qs'
  end.

(** [for _, c := range l.Cells { ... }]: the dimensions of a cell, then the
    queries of that same cell, then the next cell. *)
Fixpoint range_Cells (cs : list Cell) : option error :=
  match cs with
  | [] => None
  | c :: cs' =>
      if (W c =? 0) || (H c =? 0) then Some err_w_h
      else match range_Queries (Queries c) with
           | Some e => Some e
           | None => range_Cells cs'
           end
  end.

(** The body of [ValidLayoutRequest] with its frame made explicit: [l] is a
    parameter passed by value, so the assignment [l.Organization =
    defaultOrgID] writes to the callee's copy.  The function returns that
    copy as it stands at the [return], together with the returned error. *)
Definition ValidLayoutRequest_frame (l : Layout) (defaultOrgID : string)
  : Layout * option error :=
  if (Application l =? "")%string || (Measurement l =? "")%string
     || (length (Cells l) =? 0)%nat
  then (l, Some err_required)
  else
    let l := if (Organization l =? "")%string
             then set_Organization l defaultOrgID else l in
    (l, range_Cells (Cells l)).

(** What the caller receives: the error alone. *)
Definition ValidLayoutRequest (l : Layout) (defaultOrgID : string)
  : option error :=
  snd (ValidLayoutRequest_frame l defaultOrgID).

(** Decidable readings of the conditions the specification names. *)
Definition zero_dimension (c : Cell) : bool := (W c =? 0) || (H c =? 0).

Definition empty_command (q : Query) : bool := (Command q =? "")%string.

Definition has_empty_command (c : Cell) : bool :=
  existsb empty_command (Queries c).

Definition missing_required (l : Layout) : bool :=
  (Application l =? "")%string || (Measurement l =? "")%string
  || (length (Cells l) =? 0)%nat.

(** ** newLayoutResponse (layout.go, lines 12-50) *)

Record link : Type := mkLink { Href : string; Rel : string }.

(** [layoutResponse] embeds the layout and adds the link. *)
Record layoutResponse : Type := mkLayoutResponse {
  Layout_of : Layout;
  Link : link
}.

Record getLayoutsResponse : Type := mkGetLayoutsResponse {
  Layouts_of : list layoutResponse
}.

(** [axes := []string{"x", "y", "y2"}] *)
Definition axes : list string := ["x"; "y"; "y2"].

(** [_, found := m[k]] on a map that may be [nil]. *)
Definition index_found (m : option (gmap string Axis)) (k : string) : bool :=
  match m with
  | None => false
  | Some m => bool_decide (is_Some (m !! k))
  end.

(** [chronograf.Axis{Bounds: []string{}}] *)
Definition empty_Axis : Axis := {| Bounds := [] |}.

(** The inner loop, lines 34-40.  Two names reach the axes of the cell: the
    field [cell.Axes] of the loop variable, a copy of the slice element made
    when the iteration starts, and the element's own field
    [layout.Cells[idx].Axes], here [slot].  Membership is tested through the
    first and the insertion goes through the second.  When the map was not
    [nil] both denote one map, so an insertion is seen by the later tests;
    when it was [nil], line 31 stored a new map in the element only, and
    [cell.Axes] stays [nil] for the whole iteration. *)
Fixpoint range_axes (cell_Axes : option (gmap string Axis))
    (slot : gmap string Axis) (axs : list string) : gmap string Axis :=
  match axs with
  | [] => slot
  | axis :: axs' =>
      if index_found cell_Axes axis then range_axes cell_Axes slot axs'
      else
        let slot' := <[axis := empty_Axis]> slot in
        let cell_Axes' := match cell_Axes with
                          | None => None
                          | Some _ => Some slot'
                          end in
        range_axes cell_Axes' slot' axs'
  end.

(** One iteration of the outer loop, lines 27-41: what the slice element
    holds when the iteration ends. *)
Definition repair_cell (cell : Cell) : Cell :=
  let slot := match Axes cell with
              | None => ∅ (* make(map[string]chronograf.Axis, len(axes)) *)
              | Some m => m
              end in
  set_Axes cell (Some (range_axes (Axes cell) slot axes)).

(** Iteration [idx] writes to element [idx] only and reads nothing of the
    other elements, so the loop is a map over the cells.  The slice shares
    its elements with the layout of the caller, and two cells may hold one
    and the same map; since an iteration only adds the well-known keys that
    are missing, the content every cell ends with is the one computed here
    from the cell alone.  This function is the value returned; that the
    repair is also written in place, into cells that the store may share,
    is accounted for where the handlers call it ([build] below). *)
Definition newLayoutResponse (layout : Layout) : layoutResponse :=
  let httpAPILayouts := "/chronograf/v1/layouts" in
  let href := httpAPILayouts +:+ "/" +:+ ID layout in
  let rel := "self" in
  let layout := set_Cells layout (map repair_cell (Cells layout)) in
  {| Layout_of := layout; Link := {| Href := href; Rel := rel |} |}.

(** The axis map of a cell as a total map: [nil] has no key. *)
Definition axes_of (c : Cell) : gmap string Axis :=
  match Axes c with
  | None => ∅
  | Some m => m
  end.

(** ** The list loop of [Layouts] (layout.go, lines 107-131) *)

(** [m[k]] on a [map[string]bool]: [false] for a missing key. *)
Definition index_bool (m : gmap string bool) (k : string) : bool :=
  default false (m !! k).

(** Lines 91-98: the sieve built from the [app] and [measurement] query
    parameters. *)
Definition sieve (apps measurements : list string) : gmap string bool :=
  let filtered := foldl (fun f a => <[a := true]> f) ∅ apps in
  foldl (fun f m => <[m := true]> f) filtered measurements.

(** The closure [filter], lines 107-115. *)
Definition filter_layout (filtered : gmap string bool) (layout : Layout)
  : bool :=
  if (size filtered =? 0)%nat then true
  else index_bool filtered (Measurement layout)
       || index_bool filtered (Application layout).

(** Lines 121-131.  [seen] is read at line 124; no statement of the loop
    writes to it, so it is handed on as it is. *)
Fixpoint range_layouts (filtered seen : gmap string bool)
    (res : list layoutResponse) (layouts : list Layout)
  : list layoutResponse :=
  match layouts with
  | [] => res
  | layout :: layouts' =>
      if index_bool seen (Measurement layout +:+ ID layout)
      then range_layouts filtered seen res layouts'
      else if filter_layout filtered layout
      then range_layouts filtered seen (res ++ [newLayoutResponse layout])
             layouts'
      else range_layouts filtered seen res layouts'
  end.

(** The selection made by [Layouts]: [res.Layouts] starts empty and [seen]
    is [make(map[string]bool)]. *)
Definition Select (layouts : list Layout) (filtered : gmap string bool)
  : list layoutResponse :=
  range_layouts filtered ∅ [] layouts.

(** The composite key of a layout at line 124. *)
Definition composite_key (l : Layout) : string := Measurement l +:+ ID l.

(** ** The handlers and their collaborators *)

Module http.
Definition StatusOK : Z := 200.
Definition StatusCreated : Z := 201.
Definition StatusNoContent : Z := 204.
Definition StatusNotFound : Z := 404.
Definition StatusInternalServerError : Z := 500.
End http.

(** What a handler reads of [*http.Request]: the router parameter [id], the
    outcome of [json.NewDecoder(r.Body).Decode(&layout)] on a zero layout
    ([None] when it returns an error) and the values of the two query
    parameters. *)
Record Request : Type := mkRequest {
  param_id : string;
  Body : option Layout;
  Query_app : list string;
  Query_measurement : list string
}.

(** The value handed to [encodeJSON]. *)
Inductive Payload : Type :=
| JSON_layout (res : layoutResponse)
| JSON_layouts (res : getLayoutsResponse).

(** Everything a handler does to the outside, in the order it does it: the
    calls on [s.Store] and the calls that write to the response writer [w].
    The helpers [invalidJSON], [invalidData], [unknownErrorWithMessage],
    [Error], [location] and [encodeJSON] are recorded with their
    arguments (the logger apart). *)
Inductive Event : Type :=
| Store_Layouts_All
| Store_Layouts_Add (l : Layout)
| Store_Layouts_Delete (l : Layout)
| Store_Layouts_Get (id : string)
| Store_Layouts_Update (l : Layout)
| Store_DefaultOrganization
| invalidJSON
| invalidData (err : error)
| unknownErrorWithMessage (err : error)
| Error (code : Z) (msg : string)
| location (href : string)
| encodeJSON (status : Z) (v : Payload)
| WriteHeader (status : Z).

(** Modelled from the spec: the interfaces behind [s.Store] are declared
    outside the sources at hand; section 6 of the specification lists the
    six operations the handlers call.  A store is any state type with these
    operations, each of which may change the state. *)
Class Store (S : Type) : Type := {
  Layouts_All : S -> (list Layout * option error) * S;
  Layouts_Add : Layout -> S -> (Layout * option error) * S;
  Layouts_Delete : Layout -> S -> option error * S;
  Layouts_Get : string -> S -> (Layout * option error) * S;
  Layouts_Update : Layout -> S -> option error * S;
  DefaultOrganization : S -> (OrganizationRecord * option error) * S
}.

(** What the store shares with the handlers.  [newLayoutResponse] writes
    the repaired axes in place (lines 31 and 36 assign through
    [layout.Cells[idx]]), and the slice of cells and the maps of a layout
    that came out of the store, or went into it, may be the very ones the
    store holds.  [repaired_in_place l s] is the state of the store once
    the cells of the layout [l] have been repaired in place, [s] being its
    state before: the same state for a store that copies what crosses its
    interface, a state with repaired records for a store that hands out and
    keeps its own slices. *)
Class Sharing (S : Type) : Type := {
  repaired_in_place : Layout -> S -> S
}.

Section Service.

Context {S : Type} `{Store S} `{Sharing S}.

(** [fmt.Sprintf("%v", layout)], the rendering of a layout inside the
    message of [NewLayout]. *)
Variable Sprint_Layout : Layout -> string.

Record World : Type := mkWorld { store : S; trace : list Event }.

(** A handler step: a function of the world that returns a value. *)
Definition M (A : Type) : Type := World -> A * World.

Definition ret {A : Type} (a : A) : M A := fun w => (a, w).

Definition bind {A B : Type} (m : M A) (k : A -> M B) : M B :=
  fun w => let (a, w') := m w in k a w'.

(** A call on the store: recorded, then performed. *)
Definition call {A : Type} (e : Event) (op : S -> A * S) : M A :=
  fun w => let (a, s') := op (store w) in
           (a, {| store := s'; trace := trace w ++ [e] |}).

(** A call that writes to [w]. *)
Definition write (e : Event) : M unit :=
  fun w => (tt, {| store := store w; trace := trace w ++ [e] |}).

(** A call of [newLayoutResponse]: it returns the response and leaves the
    cells of its argument repaired in place, which the store sees as far as
    it shares them.  It is neither a call on the store nor an answer, so no
    event is recorded. *)
Definition build (layout : Layout) : M layoutResponse :=
  fun w => (newLayoutResponse layout,
            {| store := repaired_in_place layout (store w);
               trace := trace w |}).

Notation "x <- m ;; k" := (bind m (fun x => k))
  (at level 100, m at next level, right associativity).

(** Lines 52-82. *)
Definition NewLayout (r : Request) : M unit :=
  match Body r with
  | None => write invalidJSON
  | Some layout =>
      res <- call Store_DefaultOrganization DefaultOrganization ;;
      match snd res with
      | Some err => write (unknownErrorWithMessage err)
      | None =>
          let defaultOrg := fst res in
          match ValidLayoutRequest layout
                  (Sprintf_d (OrganizationID defaultOrg)) with
          | Some err => write (invalidData err)
          | None =>
              added <- call (Store_Layouts_Add layout)
                         (Layouts_Add layout) ;;
              let layout := fst added in
              match snd added with
              | Some err =>
                  let msg := "Error storing layout " +:+
                             Sprint_Layout layout +:+ ": " +:+ err in
                  write (unknownErrorWithMessage msg)
              | None =>
                  res <- build layout ;;
                  _ <- write (location (Href (Link res))) ;;
                  write (encodeJSON http.StatusCreated (JSON_layout res))
              end
          end
      end
  end.

(** Lines 121-131 as the handler runs them: the loop of [range_layouts],
    with each response built by a call of [newLayoutResponse] on the
    layout at hand, so that the layouts answered with are repaired in
    place one after the other.  A later layout that shares cells with an
    earlier one is then read repaired; its response is the same, the repair
    of a repaired cell being that cell. *)
Fixpoint range_layouts_in_place (filtered seen : gmap string bool)
    (res : list layoutResponse) (layouts : list Layout)
  : M (list layoutResponse) :=
  match layouts with
  | [] => ret res
  | layout :: layouts' =>
      if index_bool seen (Measurement layout +:+ ID layout)
      then range_layouts_in_place filtered seen res layouts'
      else if filter_layout filtered layout
      then built <- build layout ;;
           range_layouts_in_place filtered seen (res ++ [built]) layouts'
      else range_layouts_in_place filtered seen res layouts'
  end.

(** Lines 88-133. *)
Definition Layouts (r : Request) : M unit :=
  let filtered := sieve (Query_app r) (Query_measurement r) in
  got <- call Store_Layouts_All Layouts_All ;;
  match snd got with
  | Some _ =>
      write (Error http.StatusInternalServerError "Error loading layouts")
  | None =>
      let layouts := fst got in
      selected <- range_layouts_in_place filtered ∅ [] layouts ;;
      let res := {| Layouts_of := selected |} in
      write (encodeJSON http.StatusOK (JSON_layouts res))
  end.

(** Lines 135-148. *)
Definition LayoutsID (r : Request) : M unit :=
  let id := param_id r in
  got <- call (Store_Layouts_Get id) (Layouts_Get id) ;;
  match snd got with
  | Some _ =>
      write (Error http.StatusNotFound ("ID " +:+ id +:+ " not found"))
  | None =>
      res <- build (fst got) ;;
      write (encodeJSON http.StatusOK (JSON_layout res))
  end.

(** Lines 150-165. *)
Definition RemoveLayout (r : Request) : M unit :=
  let id := param_id r in
  let layout := set_ID zero_Layout id in
  err <- call (Store_Layouts_Delete layout) (Layouts_Delete layout) ;;
  match err with
  | Some err => write (unknownErrorWithMessage err)
  | None => write (WriteHeader http.StatusNoContent)
  end.

(** Lines 167-204. *)
Definition UpdateLayout (r : Request) : M unit :=
  let id := param_id r in
  got <- call (Store_Layouts_Get id) (Layouts_Get id) ;;
  match snd got with
  | Some _ =>
      write (Error http.StatusNotFound ("ID " +:+ id +:+ " not found"))
  | None =>
      match Body r with
      | None => write invalidJSON
      | Some req =>
          let req := set_ID req id in
          res <- call Store_DefaultOrganization DefaultOrganization ;;
          match snd res with
          | Some err => write (unknownErrorWithMessage err)
          | None =>
              let defaultOrg := fst res in
              match ValidLayoutRequest req
                      (Sprintf_d (OrganizationID defaultOrg)) with
              | Some err => write (invalidData err)
              | None =>
                  err <- call (Store_Layouts_Update req)
                           (Layouts_Update req) ;;
                  match err with
                  | Some err =>
                      let msg := "Error updating layout ID " +:+ id +:+
                                 ": " +:+ err in
                      write (Error http.StatusInternalServerError msg)
                  | None =>
                      res <- build req ;;
                      write (encodeJSON http.StatusOK (JSON_layout res))
                  end
              end
          end
      end
  end.

(** A handler run on a store state: the events in order and the state
    the store is left in. *)
Definition run (h : M unit) (s : S) : list Event * S :=
  let w := snd (h {| store := s; trace := [] |}) in (trace w, store w).

End Service.

(** ** An in-memory store and sample values

    A store kept in a list, in the manner of the fakes the handlers are
    tested against; it serves to run the handlers on concrete requests. *)

Record MemStore : Type := mkMemStore {
  mem_layouts : list Layout;
  mem_default_org : Z
}.

Definition has_ID (id : string) (l : Layout) : bool := (ID l =? id)%string.

Definition mem_Get (id : string) (s : MemStore)
  : (Layout * option error) * MemStore :=
  match find (has_ID id) (mem_layouts s) with
  | Some l => ((l, None), s)
  | None => ((zero_Layout, Some "layout not found"), s)
  end.

Definition mem_Update (l : Layout) (s : MemStore)
  : option error * MemStore :=
  if existsb (has_ID (ID l)) (mem_layouts s)
  then (None,
        {| mem_layouts :=
             map (fun l0 => if has_ID (ID l) l0 then l else l0)
                 (mem_layouts s);
           mem_default_org := mem_default_org s |})
  else (Some "layout not found", s).

Definition mem_Add (l : Layout) (s : MemStore)
  : (Layout * option error) * MemStore :=
  let l' := set_ID l (Sprintf_d (Z.of_nat (length (mem_layouts s)) + 1)) in
  ((l', None),
   {| mem_layouts := mem_layouts s ++ [l'];
      mem_default_org := mem_default_org s |}).

Definition mem_Delete (l : Layout) (s : MemStore)
  : option error * MemStore :=
  if existsb (has_ID (ID l)) (mem_layouts s)
  then (None,
        {| mem_layouts :=
             List.filter (fun l0 => negb (has_ID (ID l) l0)) (mem_layouts s);
           mem_default_org := mem_default_org s |})
  else (Some "layout not found", s).

#[global] Instance MemStore_Store : Store MemStore := {|
  Layouts_All := fun s => ((mem_layouts s, None), s);
  Layouts_Add := mem_Add;
  Layouts_Delete := mem_Delete;
  Layouts_Get := mem_Get;
  Layouts_Update := mem_Update;
  DefaultOrganization :=
    fun s => (({| OrganizationID := mem_default_org s |}, None), s)
|}.

(** This store hands out and keeps the slices of its records: repairing a
    layout in place repairs the record that is this layout. *)
Definition mem_repaired_in_place (l : Layout) (s : MemStore) : MemStore :=
  {| mem_layouts :=
       map (fun l0 => if decide (l0 = l)
                      then Layout_of (newLayoutResponse l0) else l0)
           (mem_layouts s);
     mem_default_org := mem_default_org s |}.

#[global] Instance MemStore_Sharing : Sharing MemStore := {|
  repaired_in_place := mem_repaired_in_place
|}.

Definition sample_cell : Cell :=
  {| W := 1; H := 1; Queries := [{| Command := "SELECT 1" |}];
     Axes := None |}.

Definition sample_layout : Layout :=
  {| ID := "1"; Application := "app1"; Measurement := "m1";
     Organization := ""; Cells := [sample_cell] |}.

Definition other_layout : Layout :=
  {| ID := "2"; Application := "app2"; Measurement := "m2";
     Organization := "7"; Cells := [sample_cell] |}.

(** A first cell whose only fault is an empty command, then a cell with
    zero dimensions. *)
Definition interleaved_layout : Layout :=
  {| ID := "3"; Application := "app1"; Measurement := "m1";
     Organization := "";
     Cells := [ {| W := 1; H := 1; Queries := [{| Command := "" |}];
                   Axes := None |};
                {| W := 0; H := 0; Queries := []; Axes := None |} ] |}.

(** A cell that comes with an axis named [z] and with [y]. *)
Definition extra_axis_cell : Cell :=
  {| W := 1; H := 1; Queries := [{| Command := "SELECT 1" |}];
     Axes := Some (<["z" := {| Bounds := ["0"; "10"] |}]>
                   (<["y" := {| Bounds := ["1"] |}]> ∅)) |}.

Definition extra_axis_layout : Layout :=
  {| ID := "4"; Application := "app1"; Measurement := "m1";
     Organization := ""; Cells := [extra_axis_cell] |}.

Definition sample_store : MemStore :=
  {| mem_layouts := [sample_layout; other_layout]; mem_default_org := 0 |}.

(** A store that answers [All] with the same record twice. *)
Definition overlapping_store : MemStore :=
  {| mem_layouts := [sample_layout; sample_layout]; mem_default_org := 0 |}.

(** An update of layout 1 whose body names another ID and no
    organization. *)
Definition update_body : Layout :=
  {| ID := "999"; Application := "app9"; Measurement := "m9";
     Organization := ""; Cells := [sample_cell] |}.

Definition update_request : Request :=
  {| param_id := "1"; Body := Some update_body;
     Query_app := []; Query_measurement := [] |}.

Definition update_missing_request : Request :=
  {| param_id := "42"; Body := Body update_request;
     Query_app := []; Query_measurement := [] |}.

Definition list_request (apps measurements : list string) : Request :=
  {| param_id := ""; Body := None;
     Query_app := apps; Query_measurement := measurements |}.

(** A cell that breaks rule 3 or rule 4 of the validator. *)
Definition offending (c : Cell) : bool :=
  zero_dimension c || has_empty_command c.

(** ** Readings of layouts and traces *)

(** What the validator reads of a cell: the two dimensions and the commands
    of the queries. *)
Definition cell_checked (c : Cell) : Z * Z * list string :=
  (W c, H c, map Command (Queries c)).

(** A cell whose axis map is not [nil] and binds the three well-known
    axes. *)
Definition complete_axes (c : Cell) : bool :=
  forallb (index_found (Axes c)) axes.

Definition complete_layout (l : Layout) : bool :=
  forallb complete_axes (Cells l).

Definition complete_payload (v : Payload) : bool :=
  match v with
  | JSON_layout res => complete_layout (Layout_of res)
  | JSON_layouts res =>
      forallb (fun r => complete_layout (Layout_of r)) (Layouts_of res)
  end.

(** An event that, if it sends layouts to the client, sends them with
    complete axes. *)
Definition complete_answer (e : Event) : bool :=
  match e with
  | encodeJSON _ v => complete_payload v
  | _ => true
  end.

(** The calls that answer the request: the error helpers, [encodeJSON] and
    [w.WriteHeader].  [location] only sets a header. *)
Definition is_response (e : Event) : bool :=
  match e with
  | invalidJSON | invalidData _ | unknownErrorWithMessage _ | Error _ _
  | encodeJSON _ _ | WriteHeader _ => true
  | _ => false
  end.

(** The calls on the store, and among them those that change a layout. *)
Definition is_store_call (e : Event) : bool :=
  match e with
  | Store_Layouts_All | Store_Layouts_Add _ | Store_Layouts_Delete _
  | Store_Layouts_Get _ | Store_Layouts_Update _
  | Store_DefaultOrganization => true
  | _ => false
  end.

Definition is_write (e : Event) : bool :=
  match e with
  | Store_Layouts_Add _ | Store_Layouts_Delete _ | Store_Layouts_Update _ =>
      true
  | _ => false
  end.

(** The layouts on which the loop of [Layouts] calls [newLayoutResponse],
    in the order of the calls. *)
Definition built_layouts (filtered seen : gmap string bool)
    (layouts : list Layout) : list Layout :=
  List.filter
    (fun layout =>
       negb (index_bool seen (Measurement layout +:+ ID layout))
       && filter_layout filtered layout)
    layouts.

(** The in-place repairs of several layouts, one after the other. *)
Definition repaired_all_in_place {S : Type} `{Sharing S}
    (layouts : list Layout) (s : S) : S :=
  foldl (fun st layout => repaired_in_place layout st) s layouts.

(** The three-key map a cell without axes ends with. *)
Definition default_axes : gmap string Axis :=
  <["y2" := empty_Axis]> (<["y" := empty_Axis]> (<["x" := empty_Axis]> ∅)).

(** A layout whose only cell already has the three axes, with bounds. *)
Definition complete_cell : Cell :=
  {| W := 2; H := 3; Queries := [{| Command := "SELECT 1" |}];
     Axes := Some (<["y2" := {| Bounds := [] |}]>
                   (<["y" := {| Bounds := ["0"; "100"] |}]>
                    (<["x" := {| Bounds := [] |}]> ∅))) |}.

Definition complete_sample_layout : Layout :=
  {| ID := "5"; Application := "app1"; Measurement := "m1";
     Organization := "7"; Cells := [complete_cell] |}.

Definition undecodable_request : Request :=
  {| param_id := "1"; Body := None;
     Query_app := []; Query_measurement := [] |}.

(** * Properties *)

(** ** The validator *)

Lemma range_Queries_existsb (qs : list Query) :
  range_Queries qs = if existsb empty_command qs then Some err_query else None.
Proof.
  induction qs as [|q qs IH]; simpl; [done|].
  unfold empty_command at 1. by destruct (Command q =? "")%string.
Qed.

Lemma range_Cells_find (cs : list Cell) :
  range_Cells cs =
    match find offending cs with
    | None => None
    | Some c => if zero_dimension c then Some err_w_h else Some err_query
    end.
Proof.
  induction cs as [|c cs IH]; simpl; [done|].
  unfold offending at 1, zero_dimension at 1, has_empty_command.
  rewrite range_Queries_existsb.
  destruct ((W c =? 0) || (H c =? 0)) eqn:Hd; simpl.
  - unfold zero_dimension. by rewrite Hd.
  - destruct (existsb empty_command (Queries c)) eqn:Hq; simpl.
    + unfold zero_dimension. by rewrite Hd.
    + exact IH.
Qed.

Lemma ValidLayoutRequest_unfold (l : Layout) (d : string) :
  ValidLayoutRequest l d =
    if missing_required l then Some err_required else range_Cells (Cells l).
Proof.
  unfold ValidLayoutRequest, ValidLayoutRequest_frame, missing_required.
  destruct ((Application l =? "")%string || (Measurement l =? "")%string
            || (length (Cells l) =? 0)%nat); simpl; [done|].
  by destruct (Organization l =? "")%string.
Qed.

Lemma missing_required_true (l : Layout) :
  missing_required l = true <->
  Application l = "" \/ Measurement l = "" \/ Cells l = [].
Proof.
  unfold missing_required.
  rewrite !orb_true_iff, !String.eqb_eq, Nat.eqb_eq, length_zero_iff_nil.
  tauto.
Qed.

Lemma zero_dimension_true (c : Cell) :
  zero_dimension c = true <-> W c = 0 \/ H c = 0.
Proof. unfold zero_dimension. rewrite orb_true_iff, !Z.eqb_eq. tauto. Qed.

Lemma has_empty_command_true (c : Cell) :
  has_empty_command c = true <-> exists q, q ∈ Queries c /\ Command q = "".
Proof.
  unfold has_empty_command, empty_command. rewrite existsb_exists.
  split; intros (q & Hq & Hc); exists q.
  - apply String.eqb_eq in Hc. by rewrite list_elem_of_In.
  - rewrite <- list_elem_of_In. by rewrite String.eqb_eq.
Qed.

Lemma find_offending_Some (cs : list Cell) :
  is_Some (find offending cs) <->
  (exists c, c ∈ cs /\ (W c = 0 \/ H c = 0)) \/
  (exists c q, c ∈ cs /\ q ∈ Queries c /\ Command q = "").
Proof.
  split.
  - intros [c Hc]. apply find_some in Hc as [Hin Hoff].
    apply list_elem_of_In in Hin. unfold offending in Hoff.
    apply orb_true_iff in Hoff as [Hz|Hq].
    + left. exists c. by rewrite <- zero_dimension_true.
    + right. apply has_empty_command_true in Hq as (q & Hq & Hc).
      by exists c, q.
  - intros Hex.
    assert (exists c, c ∈ cs /\ offending c = true) as (c & Hin & Hoff).
    { destruct Hex as [(c & Hin & Hz)|(c & q & Hin & Hq & Hc)];
        exists c; (split; [done|]); unfold offending; apply orb_true_iff.
      - left. by apply zero_dimension_true.
      - right. apply has_empty_command_true. by exists q. }
    destruct (find offending cs) as [c'|] eqn:Hf; [by eexists|].
    apply list_elem_of_In in Hin.
    pose proof (find_none _ _ Hf c Hin) as Hn. congruence.
Qed.

(** C2.  [ValidLayoutRequest] returns an error exactly when the application
    is empty, or the measurement is empty, or there is no cell, or some cell
    has [W] or [H] equal to zero, or some query of some cell has an empty
    command; in every other case it returns [nil]. *)
Theorem ValidLayoutRequest_error_iff (l : Layout) (defaultOrgID : string) :
  let invalid :=
    Application l = "" \/ Measurement l = "" \/ Cells l = [] \/
    (exists c, c ∈ Cells l /\ (W c = 0 \/ H c = 0)) \/
    (exists c q, c ∈ Cells l /\ q ∈ Queries c /\ Command q = "") in
  (is_Some (ValidLayoutRequest l defaultOrgID) <-> invalid) /\
  (ValidLayoutRequest l defaultOrgID = None <-> ~ invalid).
Proof.
  cbv zeta.
  assert (is_Some (ValidLayoutRequest l defaultOrgID) <->
          Application l = "" \/ Measurement l = "" \/ Cells l = [] \/
          (exists c, c ∈ Cells l /\ (W c = 0 \/ H c = 0)) \/
          (exists c q, c ∈ Cells l /\ q ∈ Queries c /\ Command q = ""))
    as Hiff.
  { rewrite ValidLayoutRequest_unfold.
    pose proof (missing_required_true l) as Hm.
    pose proof (find_offending_Some (Cells l)) as Hf.
    rewrite range_Cells_find.
    destruct (missing_required l).
    - split; [intros _|by eexists]. destruct Hm as [Hm _].
      specialize (Hm eq_refl). tauto.
    - assert (~ (Application l = "" \/ Measurement l = "" \/ Cells l = []))
        as Hn by (intros Hc; apply Hm in Hc; discriminate).
      destruct (find offending (Cells l)) as [c|].
      + split; intros _.
        * destruct Hf as [Hf _]. specialize (Hf (mk_is_Some _ _ eq_refl)). tauto.
        * destruct (zero_dimension c); by eexists.
      + split.
        * intros [e He]. discriminate.
        * intros Hc. destruct Hf as [_ Hf].
          assert (is_Some (@None Cell)) as [? ?] by (apply Hf; tauto).
          discriminate. }
  split; [exact Hiff|].
  rewrite <- Hiff. apply eq_None_not_Some.
Qed.

(** C3, as the code has it.  An interleaved layout, whose first cell has
    sound dimensions and a query with an empty command and whose second
    cell has zero dimensions, passes the first check, holds both faults,
    and is refused with the query error. *)
Lemma ValidLayoutRequest_interleaved_query_error :
  missing_required interleaved_layout = false /\
  (exists c, c ∈ Cells interleaved_layout /\ (W c = 0 \/ H c = 0)) /\
  (exists c q, c ∈ Cells interleaved_layout /\ q ∈ Queries c /\
               Command q = "") /\
  ValidLayoutRequest interleaved_layout "0" = Some err_query /\
  ValidLayoutRequest interleaved_layout "0" <> Some err_w_h.
Proof.
  split; [reflexivity|]. split; [|split; [|split]].
  - exists {| W := 0; H := 0; Queries := []; Axes := None |}.
    split; [|by left]. unfold interleaved_layout; simpl.
    apply list_elem_of_further, list_elem_of_here.
  - exists {| W := 1; H := 1; Queries := [{| Command := "" |}];
              Axes := None |}, {| Command := "" |}.
    split; [apply list_elem_of_here|]. split; [apply list_elem_of_here|done].
  - reflexivity.
  - discriminate.
Qed.

(** C3, amended.  The required-fields check comes first.  After it the
    cells are visited in order; within a cell the dimensions are checked
    before the commands of its queries, and all of these before the next
    cell.  So the first cell that breaks either rule decides: the error is
    the dimension error when that cell has a zero dimension, and the query
    error otherwise. *)
Theorem ValidLayoutRequest_first_failure (l : Layout) (defaultOrgID : string) :
  ValidLayoutRequest l defaultOrgID =
    if missing_required l then Some err_required
    else match find offending (Cells l) with
         | None => None
         | Some c => if zero_dimension c then Some err_w_h
                     else Some err_query
         end.
Proof. by rewrite ValidLayoutRequest_unfold, range_Cells_find. Qed.

(** C10.  Neither the default organization handed to the validator nor the
    organization of the layout has any influence on the outcome: the same
    error, or none, for every choice of both. *)
Theorem ValidLayoutRequest_organization_irrelevant
    (l : Layout) (d1 d2 o1 o2 : string) :
  ValidLayoutRequest l d1 = ValidLayoutRequest l d2 /\
  ValidLayoutRequest (set_Organization l o1) d1 =
    ValidLayoutRequest (set_Organization l o2) d2 /\
  (is_Some (ValidLayoutRequest l d1) <-> is_Some (ValidLayoutRequest l d2)).
Proof.
  split; [|split].
  - by rewrite !ValidLayoutRequest_unfold.
  - by rewrite !ValidLayoutRequest_unfold.
  - by rewrite !ValidLayoutRequest_unfold.
Qed.

(** A corollary in the words of the rule list: with the required fields
    present, a zero-dimension cell yields the dimension error as soon as no
    cell before it has a query with an empty command. *)
Lemma ValidLayoutRequest_zero_dimension_first
    (l : Layout) (defaultOrgID : string) (pre post : list Cell) (c : Cell) :
  missing_required l = false ->
  Cells l = pre ++ c :: post ->
  zero_dimension c = true ->
  forallb (fun c0 => negb (has_empty_command c0)) pre = true ->
  ValidLayoutRequest l defaultOrgID = Some err_w_h.
Proof.
  intros Hm Hcells Hz Hpre.
  rewrite ValidLayoutRequest_unfold, Hm, Hcells. clear Hm Hcells.
  induction pre as [|c0 pre IH]; simpl.
  - unfold zero_dimension in Hz. by rewrite Hz.
  - simpl in Hpre. apply andb_true_iff in Hpre as [Hc0 Hpre].
    destruct ((W c0 =? 0) || (H c0 =? 0)); [done|].
    rewrite range_Queries_existsb.
    unfold has_empty_command in Hc0. apply negb_true_iff in Hc0.
    rewrite Hc0. by apply IH.
Qed.

(** ** The response builder *)

Lemma decide_elem_of_cons {A : Type} (k axis : string) (axs : list string)
    (a b : A) :
  (if decide (k ∈ axis :: axs) then a else b) =
    if decide (k = axis) then a else if decide (k ∈ axs) then a else b.
Proof.
  destruct (decide (k = axis)) as [->|Hne].
  - rewrite decide_True; [done|]. apply list_elem_of_here.
  - destruct (decide (k ∈ axs)) as [Hin|Hnin].
    + rewrite decide_True; [done|]. by apply list_elem_of_further.
    + rewrite decide_False; [done|].
      intros Hc. apply elem_of_cons in Hc as [?|?]; contradiction.
Qed.

Lemma range_axes_nil (axs : list string) (slot : gmap string Axis)
    (k : string) :
  range_axes None slot axs !! k =
    if decide (k ∈ axs) then Some empty_Axis else slot !! k.
Proof.
  revert slot. induction axs as [|axis axs IH]; intros slot;
    cbn [range_axes index_found].
  - rewrite decide_False; [done|]. apply not_elem_of_nil.
  - rewrite IH, decide_elem_of_cons.
    destruct (decide (k ∈ axs)) as [Hin|Hnin].
    + by destruct (decide (k = axis)).
    + destruct (decide (k = axis)) as [->|Hne].
      * by rewrite lookup_insert_eq.
      * by rewrite lookup_insert_ne.
Qed.

Lemma range_axes_alias (axs : list string) (slot : gmap string Axis)
    (k : string) :
  range_axes (Some slot) slot axs !! k =
    match slot !! k with
    | Some a => Some a
    | None => if decide (k ∈ axs) then Some empty_Axis else None
    end.
Proof.
  revert slot. induction axs as [|axis axs IH]; intros slot;
    cbn [range_axes index_found].
  - rewrite decide_False by apply not_elem_of_nil. by destruct (slot !! k).
  - rewrite decide_elem_of_cons.
    destruct (bool_decide (is_Some (slot !! axis))) eqn:Hfound.
    + apply bool_decide_eq_true in Hfound as [a Ha]. rewrite IH.
      destruct (slot !! k) as [b|] eqn:Hk; [done|].
      destruct (decide (k = axis)) as [->|Hne]; [congruence|done].
    + apply bool_decide_eq_false in Hfound.
      apply eq_None_not_Some in Hfound. rewrite IH.
      destruct (decide (k = axis)) as [->|Hne].
      * by rewrite lookup_insert_eq, Hfound.
      * rewrite lookup_insert_ne by done. done.
Qed.

(** The content of a repaired axis map, key by key: what the cell had is
    kept, and a well-known axis the cell lacked is there with empty bounds. *)
Lemma repair_cell_lookup (c : Cell) (k : string) :
  axes_of (repair_cell c) !! k =
    match axes_of c !! k with
    | Some a => Some a
    | None => if decide (k ∈ axes) then Some empty_Axis else None
    end.
Proof.
  unfold repair_cell, axes_of. destruct (Axes c) as [m|]; cbn [Axes set_Axes].
  - apply range_axes_alias.
  - rewrite range_axes_nil, lookup_empty. by destruct (decide (k ∈ axes)).
Qed.

Lemma repair_cell_Axes (c : Cell) :
  repair_cell c = set_Axes c (Some (axes_of (repair_cell c))).
Proof. reflexivity. Qed.

Lemma repair_cell_dom (c : Cell) :
  dom (axes_of (repair_cell c)) = {["x"; "y"; "y2"]} ∪ dom (axes_of c).
Proof.
  apply set_eq. intros k.
  rewrite elem_of_union, !elem_of_dom, repair_cell_lookup.
  assert (k ∈ axes <-> k ∈ ({["x"; "y"; "y2"]} : gset string)) as Hax.
  { unfold axes.
    rewrite !elem_of_cons, elem_of_nil, !elem_of_union, !elem_of_singleton.
    tauto. }
  destruct (axes_of c !! k) as [a|] eqn:Hk.
  - split; [intros _; right|]; by eexists.
  - destruct (decide (k ∈ axes)) as [Hin|Hnin].
    + split; [intros _; left; by apply Hax|by eexists].
    + split; [intros [? ?]; discriminate|].
      intros [Hc|[? ?]]; [by apply Hax in Hc|discriminate].
Qed.

(** A map that has the three axes is left as it is by the inner loop. *)
Lemma range_axes_complete (axs : list string) (m : gmap string Axis) :
  (forall k, k ∈ axs -> is_Some (m !! k)) ->
  range_axes (Some m) m axs = m.
Proof.
  induction axs as [|axis axs IH]; intros Hall; simpl; [done|].
  rewrite bool_decide_eq_true_2 by (apply Hall, list_elem_of_here).
  apply IH. intros k Hk. by apply Hall, list_elem_of_further.
Qed.

Lemma repair_cell_idempotent (c : Cell) :
  repair_cell (repair_cell c) = repair_cell c.
Proof.
  rewrite (repair_cell_Axes c) at 2.
  unfold repair_cell at 1. rewrite (repair_cell_Axes c) at 1 2 3.
  cbn [Axes set_Axes W H Queries]. unfold set_Axes.
  f_equal. f_equal. apply range_axes_complete.
  intros k Hk. rewrite repair_cell_lookup.
  destruct (axes_of c !! k); [by eexists|].
  rewrite decide_True by done. by eexists.
Qed.

Lemma newLayoutResponse_Cells (layout : Layout) :
  Cells (Layout_of (newLayoutResponse layout)) =
    map repair_cell (Cells layout).
Proof. reflexivity. Qed.

(** C4, as the code has it.  A cell that arrives with an axis named [z] still
    has it after [newLayoutResponse]: the keys of its axis map are [x], [y],
    [y2] and [z]. *)
Lemma newLayoutResponse_keeps_extra_axis :
  exists c,
    Cells (Layout_of (newLayoutResponse extra_axis_layout)) !! 0%nat = Some c /\
    dom (axes_of c) = {["x"; "y"; "y2"; "z"]} /\
    dom (axes_of c) <> {["x"; "y"; "y2"]}.
Proof.
  exists (repair_cell extra_axis_cell). split; [reflexivity|].
  split; apply (bool_decide_unpack _); vm_compute; exact I.
Qed.

(** C4, amended.  After [newLayoutResponse] every cell is the input cell at
    the same position with a map that is not [nil] in its [Axes]; that map
    has the keys [x], [y] and [y2] together with the keys the input cell
    had, and no other; a key of the input keeps its axis, and a well-known
    key the input lacked is bound to an axis with empty bounds.  The keys
    are exactly [x], [y], [y2] when the input had no key besides these. *)
Theorem newLayoutResponse_axes (layout : Layout) (i : nat) (c' : Cell) :
  Cells (Layout_of (newLayoutResponse layout)) !! i = Some c' ->
  exists (c : Cell) (m : gmap string Axis),
    Cells layout !! i = Some c /\
    c' = set_Axes c (Some m) /\
    dom m = {["x"; "y"; "y2"]} ∪ dom (axes_of c) /\
    (forall k a, axes_of c !! k = Some a -> m !! k = Some a) /\
    (forall k, k ∈ axes -> axes_of c !! k = None ->
               m !! k = Some empty_Axis) /\
    (dom (axes_of c) ⊆ {["x"; "y"; "y2"]} -> dom m = {["x"; "y"; "y2"]}).
Proof.
  rewrite newLayoutResponse_Cells, list_lookup_fmap.
  destruct (Cells layout !! i) as [c|] eqn:Hc; [|discriminate].
  intros [= <-]. exists c, (axes_of (repair_cell c)).
  split; [done|]. split; [apply repair_cell_Axes|].
  split; [apply repair_cell_dom|]. split; [|split].
  - intros k a Hk. by rewrite repair_cell_lookup, Hk.
  - intros k Hin Hk. rewrite repair_cell_lookup, Hk.
    by rewrite decide_True.
  - intros Hsub. rewrite repair_cell_dom, (comm_L (∪)).
    by apply subseteq_union_1_L.
Qed.

Lemma newLayoutResponse_axes_witness :
  Cells (Layout_of (newLayoutResponse sample_layout)) !! 0%nat =
    Some (repair_cell sample_cell) /\
  exists (c : Cell) (m : gmap string Axis),
    Cells sample_layout !! 0%nat = Some c /\
    repair_cell sample_cell = set_Axes c (Some m) /\
    dom m = {["x"; "y"; "y2"]} ∪ dom (axes_of c) /\
    (forall k a, axes_of c !! k = Some a -> m !! k = Some a) /\
    (forall k, k ∈ axes -> axes_of c !! k = None ->
               m !! k = Some empty_Axis) /\
    (dom (axes_of c) ⊆ {["x"; "y"; "y2"]} -> dom m = {["x"; "y"; "y2"]}).
Proof.
  split; [reflexivity|].
  apply (newLayoutResponse_axes sample_layout 0 (repair_cell sample_cell)).
  reflexivity.
Defined.

(** C5.  Building the response of the layout that a first
    [newLayoutResponse] returned gives the same axis map in every cell, and
    indeed the same response, as the first application. *)
Theorem newLayoutResponse_idempotent (layout : Layout) :
  let once := newLayoutResponse layout in
  let twice := newLayoutResponse (Layout_of once) in
  map Axes (Cells (Layout_of twice)) = map Axes (Cells (Layout_of once)) /\
  twice = once.
Proof.
  cbv zeta.
  assert (newLayoutResponse (Layout_of (newLayoutResponse layout)) =
          newLayoutResponse layout) as Heq.
  { unfold newLayoutResponse. cbn [Layout_of set_Cells ID Cells Application
      Measurement Organization].
    unfold set_Cells. cbn [ID Cells Application Measurement Organization].
    rewrite map_map.
    rewrite (map_ext _ repair_cell); [done|].
    intros c. apply repair_cell_idempotent. }
  by rewrite Heq.
Qed.

(** ** The list selection *)

Lemma index_bool_empty (k : string) : index_bool ∅ k = false.
Proof. unfold index_bool. by rewrite lookup_empty. Qed.

(** Nothing is ever seen: the loop appends the response of each layout that
    passes the filter. *)
Lemma range_layouts_filter (filtered : gmap string bool)
    (res : list layoutResponse) (layouts : list Layout) :
  range_layouts filtered ∅ res layouts =
    res ++ map newLayoutResponse
             (List.filter (filter_layout filtered) layouts).
Proof.
  revert res. induction layouts as [|layout layouts IH]; intros res;
    cbn [range_layouts List.filter map].
  - by rewrite app_nil_r.
  - rewrite index_bool_empty.
    destruct (filter_layout filtered layout); cbn [map].
    + rewrite IH. by rewrite <- app_assoc.
    + apply IH.
Qed.

Lemma foldl_insert_true_lookup (l : list string) (m0 : gmap string bool)
    (k : string) :
  foldl (fun f a => <[a := true]> f) m0 l !! k =
    if decide (k ∈ l) then Some true else m0 !! k.
Proof.
  revert m0. induction l as [|a l IH]; intros m0; cbn [foldl].
  - rewrite decide_False; [done|]. apply not_elem_of_nil.
  - rewrite IH, decide_elem_of_cons.
    destruct (decide (k ∈ l)) as [Hin|Hnin].
    + by destruct (decide (k = a)).
    + destruct (decide (k = a)) as [->|Hne].
      * by rewrite lookup_insert_eq.
      * by rewrite lookup_insert_ne.
Qed.

Lemma sieve_lookup (apps measurements : list string) (k : string) :
  sieve apps measurements !! k =
    if decide (k ∈ apps ++ measurements) then Some true else None.
Proof.
  unfold sieve. rewrite !foldl_insert_true_lookup, lookup_empty.
  destruct (decide (k ∈ measurements)) as [Hm|Hm];
    destruct (decide (k ∈ apps)) as [Ha|Ha];
    destruct (decide (k ∈ apps ++ measurements)) as [Hin|Hnin];
    try done; exfalso.
  - apply Hnin, elem_of_app. by right.
  - apply Hnin, elem_of_app. by right.
  - apply Hnin, elem_of_app. by left.
  - apply elem_of_app in Hin as [?|?]; contradiction.
Qed.

Lemma sieve_size_zero (apps measurements : list string) :
  (size (sieve apps measurements) =? 0)%nat = true <->
  apps ++ measurements = [].
Proof.
  rewrite Nat.eqb_eq, map_size_empty_iff. split.
  - intros Hempty. destruct (apps ++ measurements) as [|k terms] eqn:Hterms;
      [done|].
    pose proof (sieve_lookup apps measurements k) as Hk.
    rewrite Hempty, lookup_empty, Hterms in Hk.
    rewrite decide_True in Hk by apply list_elem_of_here. discriminate.
  - intros Hterms. apply map_eq. intros k.
    rewrite sieve_lookup, Hterms, lookup_empty.
    rewrite decide_False; [done|]. apply not_elem_of_nil.
Qed.

Lemma filter_bool_Prop {A : Type} (f : A -> bool) (P : A -> Prop)
    `{forall x, Decision (P x)} (l : list A) :
  (forall x, f x = true <-> P x) ->
  List.filter f l = filter P l.
Proof.
  intros Hf. induction l as [|x l IH]; [done|].
  cbn [List.filter]. rewrite filter_cons.
  destruct (decide (P x)) as [Hp|Hn].
  - apply Hf in Hp. rewrite Hp. by rewrite IH.
  - destruct (f x) eqn:Hfx; [by apply Hf in Hfx|done].
Qed.

Lemma index_bool_sieve (apps measurements : list string) (k : string) :
  index_bool (sieve apps measurements) k = true <->
  k ∈ apps ++ measurements.
Proof.
  unfold index_bool. rewrite sieve_lookup.
  destruct (decide (k ∈ apps ++ measurements)); cbn [default]; split;
    try done; discriminate.
Qed.

Lemma filter_all {A : Type} (f : A -> bool) (l : list A) :
  (forall x, f x = true) -> List.filter f l = l.
Proof.
  intros Hf. induction l as [|x l IH]; [done|].
  cbn [List.filter]. by rewrite Hf, IH.
Qed.

(** The loop as the handler runs it returns what [range_layouts] computes,
    records no event, and repairs in place the layouts it builds a response
    for, in their order. *)
Lemma range_layouts_in_place_run {S : Type} `{Store S} `{Sharing S}
    (filtered seen : gmap string bool) (res : list layoutResponse)
    (layouts : list Layout) (w : World) :
  range_layouts_in_place filtered seen res layouts w =
    (range_layouts filtered seen res layouts,
     {| store := repaired_all_in_place (built_layouts filtered seen layouts)
                   (store w);
        trace := trace w |}).
Proof.
  revert res w. induction layouts as [|layout layouts IH]; intros res w;
    cbn [range_layouts_in_place range_layouts built_layouts List.filter].
  - by destruct w.
  - fold (built_layouts filtered seen layouts).
    destruct (index_bool seen _); cbn [negb andb]; [apply IH|].
    destruct (filter_layout filtered layout); [|apply IH].
    unfold bind, build. rewrite IH. reflexivity.
Qed.

(** The handler [Layouts] answers with the selection over what [All]
    returned. *)
Lemma Layouts_run {S : Type} `{Store S} `{Sharing S}
    (r : Request) (s s' : S) (layouts : list Layout) :
  Layouts_All s = ((layouts, None), s') ->
  run (Layouts r) s =
    ([Store_Layouts_All;
      encodeJSON http.StatusOK
        (JSON_layouts
           {| Layouts_of :=
                Select layouts (sieve (Query_app r) (Query_measurement r)) |})],
     repaired_all_in_place
       (built_layouts (sieve (Query_app r) (Query_measurement r)) ∅ layouts)
       s').
Proof.
  intros Hall. unfold run, Layouts, bind, call, write. cbn [store trace].
  rewrite Hall. cbn [fst snd]. by rewrite range_layouts_in_place_run.
Qed.

(** C1, on the code.  [seen] is never written, so nothing is dropped as a
    duplicate: when the store returns the same record twice and no filter
    term is given, the selection emits two layouts with one composite key,
    and so does the handler. *)
Lemma Select_emits_duplicate_key :
  map (fun res => composite_key (Layout_of res))
      (Select [sample_layout; sample_layout] (sieve [] [])) =
    ["m11"; "m11"] /\
  Select [sample_layout; sample_layout] (sieve [] []) =
    [newLayoutResponse sample_layout; newLayoutResponse sample_layout] /\
  fst (run (Layouts (list_request [] [])) overlapping_store) =
    [Store_Layouts_All;
     encodeJSON http.StatusOK
       (JSON_layouts
          {| Layouts_of := [newLayoutResponse sample_layout;
                            newLayoutResponse sample_layout] |})].
Proof. split; [|split]; reflexivity. Qed.

(** C6.  With no filter term the selection is the whole input, in the input
    order; with at least one term it is the sub-list, in the input order, of
    the layouts whose application or measurement is one of the terms.  Each
    selected layout appears as its response. *)
Theorem Select_filter (layouts : list Layout)
    (apps measurements : list string) :
  let terms := apps ++ measurements in
  (terms = [] ->
   Select layouts (sieve apps measurements) =
     map newLayoutResponse layouts) /\
  (terms <> [] ->
   Select layouts (sieve apps measurements) =
     map newLayoutResponse
       (filter (fun l => Application l ∈ terms \/ Measurement l ∈ terms)
               layouts)).
Proof.
  cbv zeta. unfold Select. rewrite range_layouts_filter, app_nil_l.
  split; intros Hterms; f_equal.
  - apply filter_all. intros l. unfold filter_layout.
    apply sieve_size_zero in Hterms. by rewrite Hterms.
  - apply filter_bool_Prop. intros l. unfold filter_layout.
    destruct (size (sieve apps measurements) =? 0)%nat eqn:Hsize.
    + by apply sieve_size_zero in Hsize.
    + rewrite orb_true_iff, !index_bool_sieve. tauto.
Qed.

Lemma Select_filter_witness :
  (([] : list string) ++ [] = [] /\
   ["app1"] ++ ([] : list string) <> []) /\
  Select [sample_layout; other_layout; sample_layout] (sieve [] []) =
    map newLayoutResponse [sample_layout; other_layout; sample_layout] /\
  Select [other_layout; sample_layout; other_layout] (sieve ["app1"] []) =
    map newLayoutResponse
      (filter (fun l => Application l ∈ ["app1"] ++ []
                        \/ Measurement l ∈ ["app1"] ++ [])
              [other_layout; sample_layout; other_layout]).
Proof.
  split; [split; [reflexivity|discriminate]|]. split.
  - apply (Select_filter [sample_layout; other_layout; sample_layout] [] []).
    reflexivity.
  - apply (Select_filter [other_layout; sample_layout; other_layout]
             ["app1"] []).
    discriminate.
Defined.

(** ** The handlers *)

(** Membership of an event in a short trace, by cases. *)
Ltac trace_cases Hin :=
  repeat (apply elem_of_cons in Hin as [Hin|Hin];
          [try discriminate Hin|]);
  try (by apply elem_of_nil in Hin).

(** C9.  When [Get] returns an error for the path ID, [UpdateLayout] writes
    the 404 response and does nothing else: the only call on the store is
    that [Get], no [Update] is made, and the store is left in the state in
    which [Get] left it. *)
Theorem UpdateLayout_not_found {S : Type} `{Store S} `{Sharing S}
    (r : Request) (s s' : S) (l0 : Layout) (e : error) :
  Layouts_Get (param_id r) s = ((l0, Some e), s') ->
  run (UpdateLayout r) s =
    ([Store_Layouts_Get (param_id r);
      Error http.StatusNotFound ("ID " +:+ param_id r +:+ " not found")],
     s') /\
  (forall l, Store_Layouts_Update l ∉ fst (run (UpdateLayout r) s)).
Proof.
  intros Hget.
  assert (run (UpdateLayout r) s =
            ([Store_Layouts_Get (param_id r);
              Error http.StatusNotFound
                ("ID " +:+ param_id r +:+ " not found")], s')) as Hrun.
  { unfold run, UpdateLayout, bind, call, write. cbn [store trace].
    by rewrite Hget. }
  split; [exact Hrun|].
  intros l Hin. rewrite Hrun in Hin. cbn [fst] in Hin. trace_cases Hin.
Qed.

Lemma UpdateLayout_not_found_witness :
  Layouts_Get (param_id update_missing_request) sample_store =
    ((zero_Layout, Some "layout not found"), sample_store) /\
  run (UpdateLayout update_missing_request) sample_store =
    ([Store_Layouts_Get "42"; Error 404 "ID 42 not found"], sample_store) /\
  (forall l, Store_Layouts_Update l ∉
             fst (run (UpdateLayout update_missing_request) sample_store)).
Proof.
  split; [reflexivity|].
  apply (UpdateLayout_not_found update_missing_request sample_store
           sample_store zero_Layout "layout not found").
  reflexivity.
Defined.

(** The events of [UpdateLayout] once the body is decoded: an [Update]
    carries the body with the path ID, and so does a JSON answer. *)
Lemma UpdateLayout_events {S : Type} `{Store S} `{Sharing S}
    (r : Request) (s : S) (body : Layout) :
  Body r = Some body ->
  (forall l, Store_Layouts_Update l ∈ fst (run (UpdateLayout r) s) ->
             l = set_ID body (param_id r)) /\
  (forall status v, encodeJSON status v ∈ fst (run (UpdateLayout r) s) ->
     status = http.StatusOK /\
     v = JSON_layout (newLayoutResponse (set_ID body (param_id r)))).
Proof.
  intros Hbody.
  unfold run, UpdateLayout, bind, call, write. cbn [store trace].
  destruct (Layouts_Get (param_id r) s) as [[l0 [e0|]] s1]; cbn [fst snd].
  { split; [intros l Hin|intros st v Hin]; cbn [store trace app] in Hin;
      trace_cases Hin. }
  rewrite Hbody. cbn [store trace].
  destruct (DefaultOrganization s1) as [[org [e1|]] s2]; cbn [fst snd].
  { split; [intros l Hin|intros st v Hin]; cbn [store trace app] in Hin;
      trace_cases Hin. }
  destruct (ValidLayoutRequest (set_ID body (param_id r))
              (Sprintf_d (OrganizationID org))) as [e2|].
  { split; [intros l Hin|intros st v Hin]; cbn [store trace app] in Hin;
      trace_cases Hin. }
  cbn [store trace].
  destruct (Layouts_Update (set_ID body (param_id r)) s2) as [[e3|] s3].
  - split; [intros l Hin|intros st v Hin]; cbn [store trace app] in Hin;
      trace_cases Hin. congruence.
  - split; [intros l Hin|intros st v Hin]; cbn [store trace app] in Hin;
      trace_cases Hin; [congruence|]. by injection Hin as -> ->.
Qed.

(** The run of [UpdateLayout] when every step before the store write
    succeeds. *)
Lemma UpdateLayout_reaches_Update {S : Type} `{Store S} `{Sharing S}
    (r : Request) (body l0 : Layout) (org : OrganizationRecord)
    (s s1 s2 s3 : S) (e : option error) :
  Body r = Some body ->
  Layouts_Get (param_id r) s = ((l0, None), s1) ->
  DefaultOrganization s1 = ((org, None), s2) ->
  ValidLayoutRequest (set_ID body (param_id r))
    (Sprintf_d (OrganizationID org)) = None ->
  Layouts_Update (set_ID body (param_id r)) s2 = (e, s3) ->
  run (UpdateLayout r) s =
    ([Store_Layouts_Get (param_id r); Store_DefaultOrganization;
      Store_Layouts_Update (set_ID body (param_id r));
      match e with
      | Some err =>
          Error http.StatusInternalServerError
            ("Error updating layout ID " +:+ param_id r +:+ ": " +:+ err)
      | None =>
          encodeJSON http.StatusOK
            (JSON_layout (newLayoutResponse (set_ID body (param_id r))))
      end],
     match e with
     | Some _ => s3
     | None => repaired_in_place (set_ID body (param_id r)) s3
     end).
Proof.
  intros Hbody Hget Horg Hvalid Hupd.
  unfold run, UpdateLayout, bind, call, write, build. cbn [store trace].
  rewrite Hget. cbn [fst snd store trace]. rewrite Hbody.
  cbn [store trace]. rewrite Horg. cbn [fst snd store trace].
  rewrite Hvalid. cbn [store trace]. rewrite Hupd.
  by destruct e.
Qed.

(** C7.  Once the body of an update request is decoded, its ID is replaced
    by the path ID: the layout that is validated, the layout given to the
    store's [Update] and the layout echoed in the answer are all the body
    with the path ID, whatever ID the body named.  When the lookup, the
    default organization and the validation succeed, the store's [Update]
    is performed on that layout, in the state the two earlier calls left:
    the handler leaves the store in the state [Update] returned, in which
    the cells of that layout are repaired in place when the answer is
    built, and it answers according to what [Update] returned. *)
Theorem UpdateLayout_path_ID {S : Type} `{Store S} `{Sharing S}
    (r : Request) (s : S) (body : Layout) :
  Body r = Some body ->
  let req := set_ID body (param_id r) in
  ID req = param_id r /\
  (forall l, Store_Layouts_Update l ∈ fst (run (UpdateLayout r) s) ->
             l = req /\ ID l = param_id r) /\
  (forall status v, encodeJSON status v ∈ fst (run (UpdateLayout r) s) ->
     v = JSON_layout (newLayoutResponse req) /\
     ID (Layout_of (newLayoutResponse req)) = param_id r) /\
  (forall l0 org s1 s2 s3 e,
     Layouts_Get (param_id r) s = ((l0, None), s1) ->
     DefaultOrganization s1 = ((org, None), s2) ->
     ValidLayoutRequest req (Sprintf_d (OrganizationID org)) = None ->
     Layouts_Update req s2 = (e, s3) ->
     run (UpdateLayout r) s =
       ([Store_Layouts_Get (param_id r); Store_DefaultOrganization;
         Store_Layouts_Update req;
         match e with
         | Some err =>
             Error http.StatusInternalServerError
               ("Error updating layout ID " +:+ param_id r +:+ ": " +:+ err)
         | None =>
             encodeJSON http.StatusOK (JSON_layout (newLayoutResponse req))
         end],
        match e with
        | Some _ => s3
        | None => repaired_in_place req s3
        end)).
Proof.
  intros Hbody. cbv zeta.
  destruct (UpdateLayout_events r s body Hbody) as [Hupd Hjson].
  split; [reflexivity|]. split; [|split].
  - intros l Hin. apply Hupd in Hin. by subst l.
  - intros status v Hin. apply Hjson in Hin as [_ ->]. done.
  - intros l0 org s1 s2 s3 e Hget Horg Hvalid Hstore.
    by apply (UpdateLayout_reaches_Update r body l0 org s s1 s2 s3 e).
Qed.

Lemma UpdateLayout_path_ID_witness :
  Body update_request = Some update_body /\
  ID update_body = "999" /\
  (Layouts_Get "1" sample_store = ((sample_layout, None), sample_store) /\
   DefaultOrganization sample_store =
     (({| OrganizationID := 0 |}, None), sample_store) /\
   ValidLayoutRequest (set_ID update_body "1") (Sprintf_d 0) = None /\
   Layouts_Update (set_ID update_body "1") sample_store =
     (None,
      {| mem_layouts := [set_ID update_body "1"; other_layout];
         mem_default_org := 0 |})) /\
  run (UpdateLayout update_request) sample_store =
    ([Store_Layouts_Get "1"; Store_DefaultOrganization;
      Store_Layouts_Update (set_ID update_body "1");
      encodeJSON 200
        (JSON_layout (newLayoutResponse (set_ID update_body "1")))],
     {| mem_layouts :=
          [Layout_of (newLayoutResponse (set_ID update_body "1"));
           other_layout];
        mem_default_org := 0 |}) /\
  (forall l,
     Store_Layouts_Update l ∈
       fst (run (UpdateLayout update_request) sample_store) ->
     l = set_ID update_body "1" /\ ID l = "1").
Proof.
  split; [reflexivity|]. split; [reflexivity|].
  split; [repeat split|].
  destruct (UpdateLayout_path_ID update_request sample_store update_body
              eq_refl) as (_ & Hupd & _ & Hrun).
  split; [|exact Hupd].
  rewrite (Hrun sample_layout {| OrganizationID := 0 |} sample_store
             sample_store
             {| mem_layouts := [set_ID update_body "1"; other_layout];
                mem_default_org := 0 |} None);
    reflexivity.
Defined.

(** The events of [NewLayout] once the body is decoded: an [Add] carries
    the decoded layout. *)
Lemma NewLayout_events {S : Type} `{Store S} `{Sharing S}
    (Sprint_Layout : Layout -> string) (r : Request) (s : S)
    (body : Layout) :
  Body r = Some body ->
  forall l, Store_Layouts_Add l ∈ fst (run (NewLayout Sprint_Layout r) s) ->
            l = body.
Proof.
  intros Hbody l.
  unfold run, NewLayout, bind, call, write. rewrite Hbody.
  cbn [store trace].
  destruct (DefaultOrganization s) as [[org [e1|]] s1]; cbn [fst snd].
  { intros Hin; cbn [store trace app] in Hin; trace_cases Hin. }
  destruct (ValidLayoutRequest body (Sprintf_d (OrganizationID org)))
    as [e2|].
  { intros Hin; cbn [store trace app] in Hin; trace_cases Hin. }
  cbn [store trace].
  destruct (Layouts_Add body s1) as [[added [e3|]] s2]; cbn [fst snd];
    intros Hin; cbn [store trace app] in Hin; trace_cases Hin; congruence.
Qed.

Lemma NewLayout_reaches_Add {S : Type} `{Store S} `{Sharing S}
    (Sprint_Layout : Layout -> string) (r : Request) (body : Layout)
    (org : OrganizationRecord) (s s1 : S) :
  Body r = Some body ->
  DefaultOrganization s = ((org, None), s1) ->
  ValidLayoutRequest body (Sprintf_d (OrganizationID org)) = None ->
  Store_Layouts_Add body ∈ fst (run (NewLayout Sprint_Layout r) s).
Proof.
  intros Hbody Horg Hvalid.
  unfold run, NewLayout, bind, call, write. rewrite Hbody.
  cbn [store trace]. rewrite Horg. cbn [fst snd store trace].
  rewrite Hvalid. cbn [store trace].
  destruct (Layouts_Add body s1) as [[added [e3|]] s2];
    cbn [fst snd store trace app];
    apply list_elem_of_further, list_elem_of_here.
Qed.

(** C8.  The validator works on its own copy of the layout.  For a layout
    without organization that has the required fields, the copy ends with
    the default organization; the layout of the caller does not: what
    [NewLayout] gives to [Add] is the decoded body itself, and what
    [UpdateLayout] gives to [Update] is the body with the path ID, both with
    the organization still empty and every other field as decoded.  On the
    paths where the validation succeeds these calls are made. *)
Theorem ValidLayoutRequest_caller_layout_unchanged
    {S : Type} `{Store S} `{Sharing S}
    (Sprint_Layout : Layout -> string) (r : Request) (s : S)
    (body : Layout) (defaultOrgID : string) :
  Body r = Some body ->
  Organization body = "" ->
  (missing_required body = false ->
   fst (ValidLayoutRequest_frame body defaultOrgID) =
     set_Organization body defaultOrgID) /\
  (forall l, Store_Layouts_Add l ∈ fst (run (NewLayout Sprint_Layout r) s) ->
             l = body /\ Organization l = "") /\
  (forall l, Store_Layouts_Update l ∈ fst (run (UpdateLayout r) s) ->
             l = set_ID body (param_id r) /\ Organization l = "" /\
             Application l = Application body /\
             Measurement l = Measurement body /\ Cells l = Cells body) /\
  (forall org s1,
     DefaultOrganization s = ((org, None), s1) ->
     ValidLayoutRequest body (Sprintf_d (OrganizationID org)) = None ->
     Store_Layouts_Add body ∈ fst (run (NewLayout Sprint_Layout r) s)).
Proof.
  intros Hbody Horg. split; [|split; [|split]].
  - intros Hreq. unfold ValidLayoutRequest_frame.
    unfold missing_required in Hreq. rewrite Hreq, Horg. reflexivity.
  - intros l Hin. apply (NewLayout_events _ r s body Hbody) in Hin.
    by subst l.
  - intros l Hin.
    destruct (UpdateLayout_events r s body Hbody) as [Hupd _].
    apply Hupd in Hin. subst l. by cbn.
  - intros org s1 Hdef Hvalid.
    by apply (NewLayout_reaches_Add _ r body org s s1).
Qed.

Lemma ValidLayoutRequest_caller_layout_unchanged_witness :
  (Body update_request = Some update_body /\ Organization update_body = "") /\
  fst (ValidLayoutRequest_frame update_body "0") =
    set_Organization update_body "0" /\
  fst (run (NewLayout (fun _ => "") update_request) sample_store) =
    [Store_DefaultOrganization; Store_Layouts_Add update_body;
     location "/chronograf/v1/layouts/3";
     encodeJSON 201
       (JSON_layout (newLayoutResponse (set_ID update_body "3")))] /\
  (forall l,
     Store_Layouts_Add l ∈
       fst (run (NewLayout (fun _ => "") update_request) sample_store) ->
     l = update_body /\ Organization l = "").
Proof.
  split; [split; reflexivity|].
  destruct (ValidLayoutRequest_caller_layout_unchanged (fun _ => "")
              update_request sample_store update_body "0" eq_refl eq_refl)
    as (Hframe & Hadd & _).
  split; [by apply Hframe|]. split; [reflexivity|exact Hadd].
Defined.

(** * Further properties *)

(** ** What the validator reads *)

Lemma range_Queries_Command (qs1 qs2 : list Query) :
  map Command qs1 = map Command qs2 ->
  range_Queries qs1 = range_Queries qs2.
Proof.
  revert qs2. induction qs1 as [|q1 qs1 IH]; intros [|q2 qs2] Heq;
    try discriminate; [done|].
  cbn [map] in Heq. injection Heq as Hc Hrest.
  cbn [range_Queries]. rewrite Hc.
  destruct (Command q2 =? "")%string; [done|]. by apply IH.
Qed.

Lemma range_Cells_checked (cs1 cs2 : list Cell) :
  map cell_checked cs1 = map cell_checked cs2 ->
  range_Cells cs1 = range_Cells cs2.
Proof.
  revert cs2. induction cs1 as [|c1 cs1 IH]; intros [|c2 cs2] Heq;
    try discriminate; [done|].
  cbn [map] in Heq. injection Heq as Hw Hh Hq Hrest.
  cbn [range_Cells]. rewrite Hw, Hh, (range_Queries_Command _ _ Hq).
  destruct ((W c2 =? 0) || (H c2 =? 0)); [done|].
  destruct (range_Queries (Queries c2)); [done|]. by apply IH.
Qed.

(** X1.  The outcome of the validation is fixed by the application, the
    measurement and, cell by cell, the dimensions and the commands of the
    queries: two layouts that agree on these get the same answer, whatever
    their IDs, organizations and axes, and whatever default organization is
    given. *)
Theorem ValidLayoutRequest_congruence (l1 l2 : Layout) (d1 d2 : string) :
  Application l1 = Application l2 ->
  Measurement l1 = Measurement l2 ->
  map cell_checked (Cells l1) = map cell_checked (Cells l2) ->
  ValidLayoutRequest l1 d1 = ValidLayoutRequest l2 d2.
Proof.
  intros Happ Hmeas Hcells. rewrite !ValidLayoutRequest_unfold.
  unfold missing_required. rewrite Happ, Hmeas.
  assert (length (Cells l1) = length (Cells l2)) as ->.
  { by rewrite <- (length_map cell_checked (Cells l1)), Hcells, length_map. }
  by rewrite (range_Cells_checked _ _ Hcells).
Qed.

Lemma ValidLayoutRequest_congruence_witness :
  (Application extra_axis_layout = Application sample_layout /\
   Measurement extra_axis_layout = Measurement sample_layout /\
   map cell_checked (Cells extra_axis_layout) =
     map cell_checked (Cells sample_layout)) /\
  ValidLayoutRequest extra_axis_layout "0" =
    ValidLayoutRequest sample_layout "12".
Proof.
  split; [repeat split|].
  by apply (ValidLayoutRequest_congruence extra_axis_layout sample_layout).
Defined.

Lemma repair_cell_checked (c : Cell) :
  cell_checked (repair_cell c) = cell_checked c.
Proof. reflexivity. Qed.

(** X2.  Building the response does not touch what the validator reads: a
    layout and the layout of its response are accepted, or refused with the
    same error, alike. *)
Theorem ValidLayoutRequest_newLayoutResponse (l : Layout) (d : string) :
  ValidLayoutRequest (Layout_of (newLayoutResponse l)) d =
    ValidLayoutRequest l d.
Proof.
  rewrite !ValidLayoutRequest_unfold. unfold missing_required.
  rewrite newLayoutResponse_Cells, length_map.
  cbn [newLayoutResponse Layout_of set_Cells Application Measurement].
  rewrite (range_Cells_checked (map repair_cell (Cells l)) (Cells l));
    [done|].
  rewrite map_map. apply map_ext. intros c. apply repair_cell_checked.
Qed.

(** ** Fixed points of the response builder *)

Lemma complete_axes_spec (c : Cell) :
  complete_axes c = true <->
  exists m, Axes c = Some m /\ forall k, k ∈ axes -> is_Some (m !! k).
Proof.
  unfold complete_axes. rewrite forallb_forall. split.
  - intros Hall. destruct (Axes c) as [m|] eqn:Hax.
    + exists m. split; [done|]. intros k Hk.
      apply list_elem_of_In, Hall in Hk. cbn [index_found] in Hk.
      by apply bool_decide_eq_true in Hk.
    + specialize (Hall "x"). cbn [index_found] in Hall.
      assert (false = true) by (apply Hall; unfold axes; cbn; auto).
      discriminate.
  - intros (m & -> & Hall) k Hk. cbn [index_found].
    apply bool_decide_eq_true, Hall. by apply list_elem_of_In.
Qed.

Lemma repair_cell_complete (c : Cell) : complete_axes (repair_cell c) = true.
Proof.
  apply complete_axes_spec. exists (axes_of (repair_cell c)).
  split; [reflexivity|]. intros k Hk. rewrite repair_cell_lookup.
  destruct (axes_of c !! k); [by eexists|].
  rewrite decide_True by done. by eexists.
Qed.

Lemma repair_cell_fixed (c : Cell) :
  repair_cell c = c <-> complete_axes c = true.
Proof.
  split.
  - intros <-. apply repair_cell_complete.
  - intros Hc. apply complete_axes_spec in Hc as (m & Hm & Hall).
    unfold repair_cell. rewrite Hm, (range_axes_complete axes m Hall).
    destruct c as [w h qs ax]. cbn [Axes] in Hm. by subst ax.
Qed.

Lemma map_fixed {A : Type} (f : A -> A) (l : list A) :
  map f l = l <-> Forall (fun x => f x = x) l.
Proof.
  induction l as [|x l IH]; cbn [map].
  - split; [constructor|done].
  - rewrite Forall_cons, <- IH. split.
    + intros [= Hx Hl]. done.
    + intros [-> ->]. done.
Qed.

(** X3.  [newLayoutResponse] returns the layout it was given exactly when
    every cell already has an axis map with [x], [y] and [y2]; otherwise the
    layout it returns differs from its input. *)
Theorem newLayoutResponse_fixpoint (l : Layout) :
  Layout_of (newLayoutResponse l) = l <-> complete_layout l = true.
Proof.
  unfold complete_layout. rewrite forallb_forall.
  assert (Layout_of (newLayoutResponse l) = l <->
          map repair_cell (Cells l) = Cells l) as ->.
  { unfold newLayoutResponse, set_Cells. cbn [Layout_of].
    destruct l as [id app meas org cs]. cbn [Cells ID Application
      Measurement Organization].
    split; [by intros [= ->]|by intros ->]. }
  rewrite map_fixed, Forall_forall. split.
  - intros Hall c Hc. apply repair_cell_fixed, Hall.
    by apply list_elem_of_In.
  - intros Hall c Hc. apply repair_cell_fixed, Hall.
    by apply list_elem_of_In.
Qed.

(** X4.  The link of a response names the layout: the href is the
    collection path, a slash and the ID, the relation is [self], and two
    responses have the same href exactly when their layouts have the same
    ID. *)
Theorem newLayoutResponse_Href_inj (l1 l2 : Layout) :
  Link (newLayoutResponse l1) =
    {| Href := "/chronograf/v1/layouts/" +:+ ID l1; Rel := "self" |} /\
  (Href (Link (newLayoutResponse l1)) = Href (Link (newLayoutResponse l2))
   <-> ID l1 = ID l2).
Proof.
  split; [reflexivity|]. cbn [newLayoutResponse Link Href]. split.
  - intros Heq. by simplify_eq/=.
  - by intros ->.
Qed.

(** X5.  A cell with a [nil] axis map and a cell with an empty axis map end
    with the same map: [x], [y] and [y2], each with empty bounds, and
    nothing else. *)
Theorem repair_cell_nil_or_empty (c : Cell) :
  Axes c = None \/ Axes c = Some ∅ ->
  repair_cell c = set_Axes c (Some default_axes) /\
  dom default_axes = ({["x"; "y"; "y2"]} : gset string) /\
  (forall k a, default_axes !! k = Some a -> Bounds a = []).
Proof.
  intros Hax.
  assert (dom default_axes = ({["x"; "y"; "y2"]} : gset string)) as Hdom.
  { apply (bool_decide_unpack _). vm_compute. exact I. }
  split; [|split; [exact Hdom|]].
  - unfold repair_cell. destruct Hax as [->| ->]; reflexivity.
  - intros k a. unfold default_axes.
    rewrite !lookup_insert. repeat case_decide; intros Hk; simplify_eq;
      reflexivity.
Qed.

Lemma repair_cell_nil_or_empty_witness :
  (Axes sample_cell = None \/ Axes sample_cell = Some ∅) /\
  repair_cell sample_cell = set_Axes sample_cell (Some default_axes).
Proof.
  split; [by left|].
  destruct (repair_cell_nil_or_empty sample_cell (or_introl eq_refl))
    as [Hrep _].
  exact Hrep.
Defined.

(** ** What every handler keeps *)

(** The runs of a handler, one store answer after the other. *)
Ltac store_answer :=
  match goal with
  | |- context [Layouts_Get ?i ?s] =>
      destruct (Layouts_Get i s) as [[? [?|]] ?]
  | |- context [Layouts_All ?s] =>
      destruct (Layouts_All s) as [[? [?|]] ?]
  | |- context [Layouts_Add ?l ?s] =>
      destruct (Layouts_Add l s) as [[? [?|]] ?]
  | |- context [Layouts_Update ?l ?s] =>
      destruct (Layouts_Update l s) as [[?|] ?]
  | |- context [Layouts_Delete ?l ?s] =>
      destruct (Layouts_Delete l s) as [[?|] ?]
  | |- context [DefaultOrganization ?s] =>
      destruct (DefaultOrganization s) as [[? [?|]] ?]
  | |- context [ValidLayoutRequest ?l ?d] =>
      destruct (ValidLayoutRequest l d) as [?|] eqn:?
  | |- context [Body ?r] => destruct (Body r) as [?|] eqn:?
  end;
  cbn [store trace fst snd app].

Ltac handler_runs :=
  unfold run, NewLayout, Layouts, LayoutsID, RemoveLayout, UpdateLayout,
    bind, call, write, build;
  cbn [store trace fst snd app];
  repeat store_answer;
  rewrite ?range_layouts_in_place_run;
  cbn [store trace fst snd app].

Lemma newLayoutResponse_complete (l : Layout) :
  complete_layout (Layout_of (newLayoutResponse l)) = true.
Proof.
  unfold complete_layout. rewrite newLayoutResponse_Cells.
  apply forallb_forall. intros c Hc. apply in_map_iff in Hc as (c0 & <- & _).
  apply repair_cell_complete.
Qed.

Lemma range_layouts_complete (filtered seen : gmap string bool)
    (res : list layoutResponse) (layouts : list Layout) :
  forallb (fun r => complete_layout (Layout_of r)) res = true ->
  forallb (fun r => complete_layout (Layout_of r))
          (range_layouts filtered seen res layouts) = true.
Proof.
  revert res. induction layouts as [|layout layouts IH]; intros res Hres;
    cbn [range_layouts]; [done|].
  destruct (index_bool seen _); [by apply IH|].
  destruct (filter_layout filtered layout); [|by apply IH].
  apply IH. rewrite forallb_app, Hres. cbn [forallb].
  by rewrite newLayoutResponse_complete.
Qed.

(** X6.  Whatever the store answers, every layout that a handler sends to
    the client, alone or in a list, has in each of its cells an axis map
    with [x], [y] and [y2]. *)
Theorem handlers_answers_complete {S : Type} `{Store S} `{Sharing S}
    (Sprint_Layout : Layout -> string) (r : Request) (s : S) :
  Forall (fun e => complete_answer e = true)
         (fst (run (NewLayout Sprint_Layout r) s)) /\
  Forall (fun e => complete_answer e = true) (fst (run (Layouts r) s)) /\
  Forall (fun e => complete_answer e = true) (fst (run (LayoutsID r) s)) /\
  Forall (fun e => complete_answer e = true)
         (fst (run (RemoveLayout r) s)) /\
  Forall (fun e => complete_answer e = true)
         (fst (run (UpdateLayout r) s)).
Proof.
  repeat split; handler_runs; repeat constructor;
    cbn [complete_answer complete_payload Layouts_of];
    try apply newLayoutResponse_complete.
  unfold Select. by apply range_layouts_complete.
Qed.

(** X7.  Whatever the store answers, a handler answers the request once,
    and the answer is the last thing it does: no call on the store follows
    it. *)
Theorem handlers_one_response {S : Type} `{Store S} `{Sharing S}
    (Sprint_Layout : Layout -> string) (r : Request) (s : S) :
  let answered_once (tr : list Event) :=
    exists resp, last tr = Some resp /\ List.filter is_response tr = [resp] in
  answered_once (fst (run (NewLayout Sprint_Layout r) s)) /\
  answered_once (fst (run (Layouts r) s)) /\
  answered_once (fst (run (LayoutsID r) s)) /\
  answered_once (fst (run (RemoveLayout r) s)) /\
  answered_once (fst (run (UpdateLayout r) s)).
Proof.
  cbv zeta. repeat split; handler_runs; eexists; split; reflexivity.
Qed.

(** X8.  The two reading handlers call the store once and never ask it to
    change: [Layouts] calls [All] and nothing else, [LayoutsID] calls [Get]
    and nothing else.  When that call fails the store is left as the call
    left it.  When it succeeds the store is left as the call left it but
    for the axes that [newLayoutResponse] repairs in place: in the cells of
    the layouts that [Layouts] selects, in their order, and in the cells of
    the layout that [LayoutsID] answers with. *)
Theorem reading_handlers_only_read {S : Type} `{Store S} `{Sharing S}
    (r : Request) (s : S) :
  (List.filter is_store_call (fst (run (Layouts r) s)) = [Store_Layouts_All]
   /\ snd (run (Layouts r) s) =
        match Layouts_All s with
        | ((_, Some _), s') => s'
        | ((layouts, None), s') =>
            repaired_all_in_place
              (built_layouts (sieve (Query_app r) (Query_measurement r)) ∅
                 layouts) s'
        end) /\
  (List.filter is_store_call (fst (run (LayoutsID r) s)) =
     [Store_Layouts_Get (param_id r)]
   /\ snd (run (LayoutsID r) s) =
        match Layouts_Get (param_id r) s with
        | ((_, Some _), s') => s'
        | ((layout, None), s') => repaired_in_place layout s'
        end).
Proof.
  repeat split; handler_runs; reflexivity.
Qed.

(** X9.  A handler changes the store at most once per request, and the
    change, when there is one, is its last call on the store. *)
Theorem handlers_write_once {S : Type} `{Store S} `{Sharing S}
    (Sprint_Layout : Layout -> string) (r : Request) (s : S) :
  let writes_once (tr : list Event) :=
    List.filter is_write tr = [] \/
    exists w, List.filter is_write tr = [w] /\
              last (List.filter is_store_call tr) = Some w in
  writes_once (fst (run (NewLayout Sprint_Layout r) s)) /\
  writes_once (fst (run (Layouts r) s)) /\
  writes_once (fst (run (LayoutsID r) s)) /\
  writes_once (fst (run (RemoveLayout r) s)) /\
  writes_once (fst (run (UpdateLayout r) s)).
Proof.
  cbv zeta. repeat split; handler_runs;
    first [by left | right; eexists; split; reflexivity].
Qed.

(** ** Writes to the store *)

(** X10.  Only validated layouts reach the store, and only after the
    calls that come before the write.  A layout given to [Add] is the
    decoded body and passes the validator, and the run of [NewLayout]
    begins with the call of the default organization followed by that
    [Add].  A layout given to [Update] bears the path ID and passes the
    validator, and the run of [UpdateLayout] begins with the lookup of the
    path ID, then the call of the default organization, then that
    [Update]. *)
Theorem writes_are_validated {S : Type} `{Store S} `{Sharing S}
    (Sprint_Layout : Layout -> string) (r : Request) (s : S) :
  (forall l,
     Store_Layouts_Add l ∈ fst (run (NewLayout Sprint_Layout r) s) ->
     Body r = Some l /\
     (forall d, ValidLayoutRequest l d = None) /\
     exists after,
       fst (run (NewLayout Sprint_Layout r) s) =
         [Store_DefaultOrganization; Store_Layouts_Add l] ++ after) /\
  (forall l,
     Store_Layouts_Update l ∈ fst (run (UpdateLayout r) s) ->
     ID l = param_id r /\
     (forall d, ValidLayoutRequest l d = None) /\
     exists after,
       fst (run (UpdateLayout r) s) =
         [Store_Layouts_Get (param_id r); Store_DefaultOrganization;
          Store_Layouts_Update l] ++ after).
Proof.
  split; handler_runs; intros written Hin; trace_cases Hin;
    injection Hin as ->;
    match goal with
    | Hv : ValidLayoutRequest _ _ = None |- _ =>
        rewrite ValidLayoutRequest_unfold in Hv
    end;
    (split; [reflexivity|]);
    (split; [intros d; by rewrite ValidLayoutRequest_unfold|]);
    eexists; reflexivity.
Qed.

Lemma writes_are_validated_witness :
  Store_Layouts_Update (set_ID update_body "1") ∈
    fst (run (UpdateLayout update_request) sample_store) /\
  ID (set_ID update_body "1") = param_id update_request /\
  (forall d, ValidLayoutRequest (set_ID update_body "1") d = None) /\
  exists after,
    fst (run (UpdateLayout update_request) sample_store) =
      [Store_Layouts_Get (param_id update_request);
       Store_DefaultOrganization;
       Store_Layouts_Update (set_ID update_body "1")] ++ after.
Proof.
  assert (Store_Layouts_Update (set_ID update_body "1") ∈
            fst (run (UpdateLayout update_request) sample_store)) as Hin.
  { apply list_elem_of_further, list_elem_of_further, list_elem_of_here. }
  split; [exact Hin|].
  destruct (writes_are_validated (fun _ => "") update_request sample_store)
    as [_ Hupd].
  exact (Hupd _ Hin).
Defined.

(** X11.  A body that cannot be decoded reaches no store write: [NewLayout]
    answers without calling the store at all, and [UpdateLayout] makes its
    lookup and no other call, leaving the store as the lookup left it. *)
Theorem undecodable_body_no_write {S : Type} `{Store S} `{Sharing S}
    (Sprint_Layout : Layout -> string) (r : Request) (s : S) :
  Body r = None ->
  run (NewLayout Sprint_Layout r) s = ([invalidJSON], s) /\
  List.filter is_store_call (fst (run (UpdateLayout r) s)) =
    [Store_Layouts_Get (param_id r)] /\
  snd (run (UpdateLayout r) s) = snd (Layouts_Get (param_id r) s).
Proof.
  intros Hbody. unfold run, NewLayout, UpdateLayout, bind, call, write.
  rewrite Hbody. cbn [store trace fst snd app].
  destruct (Layouts_Get (param_id r) s) as [[l0 [e|]] s1];
    cbn [store trace fst snd app]; repeat split; reflexivity.
Qed.

Lemma undecodable_body_no_write_witness :
  Body undecodable_request = None /\
  run (NewLayout (fun _ => "") undecodable_request) sample_store =
    ([invalidJSON], sample_store) /\
  List.filter is_store_call
    (fst (run (UpdateLayout undecodable_request) sample_store)) =
    [Store_Layouts_Get "1"] /\
  snd (run (UpdateLayout undecodable_request) sample_store) =
    snd (Layouts_Get "1" sample_store).
Proof.
  split; [reflexivity|].
  apply (undecodable_body_no_write (fun _ => "") undecodable_request
           sample_store).
  reflexivity.
Defined.

(** X12.  The answer of [NewLayout] describes the layout that [Add]
    returned, not the body: after a successful [Add] the handler sets the
    location to the href of the returned layout and sends that layout,
    built as a response, with status 201; after a failed [Add] it sends the
    storing error, which names the returned layout and the store's
    error.  The store is left in the state [Add] returned, in which the
    cells of the returned layout are repaired in place when the response is
    built. *)
Theorem NewLayout_created {S : Type} `{Store S} `{Sharing S}
    (Sprint_Layout : Layout -> string) (r : Request)
    (body added : Layout) (org : OrganizationRecord) (e : option error)
    (s s1 s2 : S) :
  Body r = Some body ->
  DefaultOrganization s = ((org, None), s1) ->
  ValidLayoutRequest body (Sprintf_d (OrganizationID org)) = None ->
  Layouts_Add body s1 = ((added, e), s2) ->
  run (NewLayout Sprint_Layout r) s =
    ([Store_DefaultOrganization; Store_Layouts_Add body] ++
     match e with
     | Some err =>
         [unknownErrorWithMessage
            ("Error storing layout " +:+ Sprint_Layout added +:+ ": "
             +:+ err)]
     | None =>
         [location ("/chronograf/v1/layouts/" +:+ ID added);
          encodeJSON http.StatusCreated
            (JSON_layout (newLayoutResponse added))]
     end,
     match e with
     | Some _ => s2
     | None => repaired_in_place added s2
     end).
Proof.
  intros Hbody Horg Hvalid Hadd.
  unfold run, NewLayout, bind, call, write, build. rewrite Hbody.
  cbn [store trace]. rewrite Horg. cbn [fst snd store trace].
  rewrite Hvalid. cbn [store trace]. rewrite Hadd.
  by destruct e.
Qed.

Lemma NewLayout_created_witness :
  (Body update_request = Some update_body /\
   DefaultOrganization sample_store =
     (({| OrganizationID := 0 |}, None), sample_store) /\
   ValidLayoutRequest update_body (Sprintf_d 0) = None /\
   Layouts_Add update_body sample_store =
     mem_Add update_body sample_store) /\
  ID (fst (fst (mem_Add update_body sample_store))) = "3" /\
  fst (run (NewLayout (fun _ => "") update_request) sample_store) =
    [Store_DefaultOrganization; Store_Layouts_Add update_body;
     location "/chronograf/v1/layouts/3";
     encodeJSON 201
       (JSON_layout (newLayoutResponse (set_ID update_body "3")))].
Proof.
  split; [repeat split|]. split; [reflexivity|].
  rewrite (NewLayout_created (fun _ => "") update_request update_body
             (set_ID update_body "3") {| OrganizationID := 0 |} None
             sample_store sample_store
             (snd (mem_Add update_body sample_store)));
    reflexivity.
Defined.

(** ** The filter terms *)

(** X13.  The selection depends on the set of filter terms only: which of
    the two query parameters a term came from, the order of the terms and
    their repetitions make no difference. *)
Theorem sieve_terms_ext (apps measurements apps' measurements' : list string) :
  (forall k, k ∈ apps ++ measurements <-> k ∈ apps' ++ measurements') ->
  sieve apps measurements = sieve apps' measurements' /\
  (forall layouts,
     Select layouts (sieve apps measurements) =
       Select layouts (sieve apps' measurements')).
Proof.
  intros Hterms.
  assert (sieve apps measurements = sieve apps' measurements') as Heq.
  { apply map_eq. intros k. rewrite !sieve_lookup.
    destruct (decide (k ∈ apps ++ measurements)) as [Hin|Hnin].
    - rewrite decide_True; [done|]. by apply Hterms.
    - rewrite decide_False; [done|]. intros Hc. by apply Hnin, Hterms. }
  split; [exact Heq|]. intros layouts. by rewrite Heq.
Qed.

Lemma sieve_terms_ext_witness :
  (forall k, k ∈ ["app1"; "m2"; "app1"] ++ [] <-> k ∈ [] ++ ["m2"; "app1"]) /\
  sieve ["app1"; "m2"; "app1"] [] = sieve [] ["m2"; "app1"].
Proof.
  assert (forall k : string,
            k ∈ ["app1"; "m2"; "app1"] ++ [] <-> k ∈ [] ++ ["m2"; "app1"])
    as Hterms.
  { intros k. cbn [app]. rewrite !elem_of_cons, elem_of_nil. tauto. }
  split; [exact Hterms|].
  destruct (sieve_terms_ext ["app1"; "m2"; "app1"] [] [] ["m2"; "app1"]
              Hterms) as [Heq _].
  exact Heq.
Defined.

Lemma filter_sublist_impl {A : Type} (f g : A -> bool) (l : list A) :
  (forall x, f x = true -> g x = true) ->
  List.filter f l `sublist_of` List.filter g l.
Proof.
  intros Himpl. induction l as [|x l IH]; cbn [List.filter]; [constructor|].
  destruct (f x) eqn:Hf.
  - rewrite (Himpl x Hf). by apply sublist_skip.
  - destruct (g x); [by apply sublist_cons|done].
Qed.

Lemma map_sublist {A B : Type} (f : A -> B) (l1 l2 : list A) :
  l1 `sublist_of` l2 -> map f l1 `sublist_of` map f l2.
Proof.
  induction 1; cbn [map]; [constructor|by apply sublist_skip|
                           by apply sublist_cons].
Qed.

(** X14.  More terms select more: when a non-empty set of filter terms is
    contained in another, the first selection is a sub-list of the second,
    in the same order; and every selection is a sub-list of the selection
    made without any term. *)
Theorem Select_monotone (layouts : list Layout)
    (apps measurements apps' measurements' : list string) :
  apps ++ measurements <> [] ->
  (forall k, k ∈ apps ++ measurements -> k ∈ apps' ++ measurements') ->
  Select layouts (sieve apps measurements)
    `sublist_of` Select layouts (sieve apps' measurements') /\
  Select layouts (sieve apps' measurements')
    `sublist_of` Select layouts (sieve [] []).
Proof.
  intros Hne Hsub. unfold Select. rewrite !range_layouts_filter, !app_nil_l.
  split; apply map_sublist, filter_sublist_impl; intros l;
    unfold filter_layout.
  - destruct (size (sieve apps measurements) =? 0)%nat eqn:Hsize;
      [by apply sieve_size_zero in Hsize|].
    destruct (size (sieve apps' measurements') =? 0)%nat; [done|].
    rewrite !orb_true_iff, !index_bool_sieve. intros [?|?]; auto.
  - intros _. reflexivity.
Qed.

Lemma Select_monotone_witness :
  (["app1"] ++ ([] : list string) <> [] /\
   (forall k : string, k ∈ ["app1"] ++ [] -> k ∈ ["app1"] ++ ["m2"])) /\
  Select [sample_layout; other_layout] (sieve ["app1"] [])
    `sublist_of` Select [sample_layout; other_layout] (sieve ["app1"] ["m2"]).
Proof.
  assert (forall k : string, k ∈ ["app1"] ++ [] -> k ∈ ["app1"] ++ ["m2"])
    as Hsub.
  { intros k. cbn [app]. rewrite !elem_of_cons, elem_of_nil. tauto. }
  split; [split; [discriminate|exact Hsub]|].
  destruct (Select_monotone [sample_layout; other_layout]
              ["app1"] [] ["app1"] ["m2"]) as [Hmono _];
    [discriminate|exact Hsub|exact Hmono].
Defined.

(** ** The errors of the validator *)

(** X15.  The validator has three errors and no other, and the first of
    them tells that a required field is missing: it is returned exactly
    when the application or the measurement is empty or there is no cell,
    whatever the cells hold. *)
Theorem ValidLayoutRequest_error_kinds (l : Layout) (d : string) :
  (ValidLayoutRequest l d = Some err_required <->
   Application l = "" \/ Measurement l = "" \/ Cells l = []) /\
  (forall e, ValidLayoutRequest l d = Some e ->
             e = err_required \/ e = err_w_h \/ e = err_query).
Proof.
  rewrite ValidLayoutRequest_unfold, range_Cells_find.
  rewrite <- missing_required_true.
  destruct (missing_required l); split.
  - done.
  - intros e [= <-]. by left.
  - split; [|discriminate].
    destruct (find offending (Cells l)) as [c|]; [|discriminate].
    destruct (zero_dimension c); discriminate.
  - intros e. destruct (find offending (Cells l)) as [c|]; [|discriminate].
    destruct (zero_dimension c); intros [= <-]; auto.
Qed.
